(** * Skill scaffolding scripts: a shallow embedding

    Verification of the command line scripts under
    [skills/learning/scripts]: [create_skill.py], [implement_action.py],
    [search_skills.py] and [install_skill.py].  The functions are
    embedded; the argument parsing under [__main__], which hands the
    command line to them unchanged, is not.

    Modelling choices, all visible in the definitions below.

    - Text.  A Python [str] is a [string]: the sequence of its UTF-8
      bytes.  Whitespace and letter case are Python's on the ASCII range;
      bytes from 128 up are neither whitespace nor cased letters.
    - Paths.  [os.path.join] is the POSIX one, on strings.  A path is
      resolved to the list of its components, innermost first, the way
      [os.path.normpath] reads it: empty and [.] components are dropped
      and [..] steps to the parent.  Symbolic links are not modelled.
    - File tree.  A finite map from resolved paths to nodes; a regular
      file carries its content and its permission bits.  The process is
      the owner of every file and is not the superuser, so reading needs
      the bit 0o400 and writing the bit 0o200.
    - Effects.  Each script is a computation over the file tree that
      returns how it ended (normal return, uncaught exception,
      [sys.exit]), what it printed (one list entry per [print] call),
      and the tree it left behind. *)

From Stdlib Require Import ZArith NArith Ascii String List Bool Lia.
From stdpp Require Import base option strings gmap.

Local Open Scope Z_scope.

#[local] Arguments String.append : simpl nomatch.
#[local] Arguments Ascii.eqb : simpl never.
#[local] Arguments String.eqb : simpl never.

(** ** Text *)

Module Text.

(** The newline and the double quote, which a string literal cannot hold
    conveniently. *)
Definition nl : string := String "010"%char "".
Definition dq : string := String "034"%char "".

Definition code_of (c : ascii) : N := N_of_ascii c.

(** [str.isspace] on one character: tab, line feed, vertical tab, form
    feed, carriage return, the four separators 0x1c..0x1f, and space. *)
Definition isspace (c : ascii) : bool :=
  let n := code_of c in
  ((9 <=? n) && (n <=? 13) || (28 <=? n) && (n <=? 32))%N.

Definition islower (c : ascii) : bool :=
  let n := code_of c in ((97 <=? n) && (n <=? 122))%N.

Definition isupper (c : ascii) : bool :=
  let n := code_of c in ((65 <=? n) && (n <=? 90))%N.

Definition iscased (c : ascii) : bool := islower c || isupper c.

Definition upper (c : ascii) : ascii :=
  if islower c then ascii_of_N (code_of c - 32) else c.

Definition lower (c : ascii) : ascii :=
  if isupper c then ascii_of_N (code_of c + 32) else c.

(** [s.lstrip()] *)
Fixpoint lstrip (s : string) : string :=
  match s with
  | EmptyString => EmptyString
  | String c s' => if isspace c then lstrip s' else s
  end.

(** [s.rstrip()]: a character is dropped when it is whitespace and
    nothing survives to its right. *)
Fixpoint rstrip (s : string) : string :=
  match s with
  | EmptyString => EmptyString
  | String c s' =>
      match rstrip s' with
      | EmptyString => if isspace c then EmptyString else String c EmptyString
      | r => String c r
      end
  end.

(** [s.strip()] *)
Definition strip (s : string) : string := rstrip (lstrip s).

(** [s.startswith(p)] *)
Fixpoint startswith (s p : string) : bool :=
  match p, s with
  | EmptyString, _ => true
  | String _ _, EmptyString => false
  | String a p', String b s' => if Ascii.eqb a b then startswith s' p' else false
  end.

(** [needle in hay] *)
Fixpoint contains (needle hay : string) : bool :=
  startswith hay needle
  || match hay with
     | EmptyString => false
     | String _ hay' => contains needle hay'
     end.

(** [s.replace(old, new)] for one-character [old] and [new]. *)
Fixpoint replace_char (old new : ascii) (s : string) : string :=
  match s with
  | EmptyString => EmptyString
  | String c s' =>
      String (if Ascii.eqb c old then new else c) (replace_char old new s')
  end.

(** [s.title()]: a letter that follows a letter is lowered, any other
    letter is raised; [prev] tells whether the previous character was a
    letter. *)
Fixpoint title_from (prev : bool) (s : string) : string :=
  match s with
  | EmptyString => EmptyString
  | String c s' =>
      String (if prev then lower c else upper c) (title_from (iscased c) s')
  end.

Definition title (s : string) : string := title_from false s.

(** Text made of whitespace only. *)
Fixpoint all_space (s : string) : bool :=
  match s with
  | EmptyString => true
  | String c s' => isspace c && all_space s'
  end.

(** Text that does not begin with whitespace. *)
Definition clean_head (s : string) : bool :=
  match s with
  | EmptyString => true
  | String c _ => negb (isspace c)
  end.

(** The last character. *)
Fixpoint last_char (s : string) : option ascii :=
  match s with
  | EmptyString => None
  | String c EmptyString => Some c
  | String _ s' => last_char s'
  end.

End Text.

Import Text.

(** ** Extension inference ([implement_action.py], lines 23-28) *)

Definition script_ext (code : string) : string :=
  if startswith (strip code) "#!/usr/bin/env python"
     || startswith (strip code) "import "
  then ".py"
  else if startswith (strip code) "#!/usr/bin/env node"
          || startswith (strip code) "const "
  then ".js"
  else ".sh".




(** The extensions a script can get. *)
Definition is_ext (e : string) : Prop := e = ".py" \/ e = ".js" \/ e = ".sh".

(** ** Paths *)

Module Path.

Definition is_slash (c : ascii) : bool := Ascii.eqb c "/".

(** [s.endswith('/')] *)
Fixpoint endswith_slash (s : string) : bool :=
  match s with
  | EmptyString => false
  | String c EmptyString => is_slash c
  | String _ s' => endswith_slash s'
  end.

(** [posixpath.join(a, b)] *)
Definition join (a b : string) : string :=
  if startswith b "/" then b
  else if String.eqb a "" || endswith_slash a then a +:+ b
  else a +:+ "/" +:+ b.

(** [s.split('/')]; the result is never empty. *)
Fixpoint split_slash (s : string) : list string :=
  match s with
  | EmptyString => [EmptyString]
  | String c s' =>
      if is_slash c then EmptyString :: split_slash s'
      else match split_slash s' with
           | [] => [String c EmptyString]
           | x :: xs => String c x :: xs
           end
  end.

(** A resolved path: its components, innermost first; [[]] is the root
    directory. *)
Abbreviation key := (list string).

Definition step (cur : key) (c : string) : key :=
  if String.eqb c "" || String.eqb c "." then cur
  else if String.eqb c ".." then tail cur
  else c :: cur.

Definition resolve (p : string) : key := fold_left step (split_slash p) [].

(** The directory an entry lives in. *)
Definition parent (k : key) : key := tail k.

(** A name without a path separator. *)
Fixpoint no_slash (s : string) : bool :=
  match s with
  | EmptyString => true
  | String c s' => negb (is_slash c) && no_slash s'
  end.

(** A name that stands for an entry of its directory: no separator, and
    none of the empty name, [.] and [..]. *)
Definition plain (n : string) : bool :=
  no_slash n && negb (String.eqb n "") && negb (String.eqb n ".")
  && negb (String.eqb n "..").

End Path.

Import Path.

(** ** The file tree *)

Inductive node : Type :=
| Dir
| File (content : string) (mode : Z).

Abbreviation tree := (gmap (list string) node).

(** The root directory always exists. *)
Definition node_at (t : tree) (k : key) : option node :=
  match k with
  | [] => Some Dir
  | _ => t !! k
  end.

Definition exists_at (t : tree) (k : key) : bool :=
  match node_at t k with Some _ => true | None => false end.

(** Permission bits of the owner. *)
Definition readable (mode : Z) : bool := Z.testbit mode 8.   (* 0o400 *)
Definition writable (mode : Z) : bool := Z.testbit mode 7.   (* 0o200 *)

(** Exceptions, with the resolved path (or the command) they are about. *)
Inductive exn : Type :=
| FileNotFoundError (k : key)
| FileExistsError (k : key)
| IsADirectoryError (k : key)
| NotADirectoryError (k : key)
| PermissionError (k : key)
| CalledProcessError (cmd : list string) (returncode : Z) (stderr : string).

(** How a run ends. [SystemExit] is not an [Exception]: an
    [except Exception] clause lets it through. *)
Inductive outcome (A : Type) : Type :=
| Ret (a : A)
| Raise (e : exn)
| Exit (code : Z).
Arguments Ret {A} a.
Arguments Raise {A} e.
Arguments Exit {A} code.

(** The exit status of the process: 0 after a normal return, 1 after an
    uncaught exception, the argument of [sys.exit] otherwise. *)
Definition exit_status {A} (r : outcome A) : Z :=
  match r with
  | Ret _ => 0
  | Raise _ => 1
  | Exit c => c
  end.

(** A computation: from the tree to the outcome, the printed lines and
    the tree left behind. *)
Definition M (A : Type) : Type := tree -> outcome A * list string * tree.

Definition ret {A} (a : A) : M A := fun t => (Ret a, [], t).

Definition bind {A B} (m : M A) (k : A -> M B) : M B :=
  fun t =>
    match m t with
    | (Ret a, o1, t1) => let '(r, o2, t2) := k a t1 in (r, o1 ++ o2, t2)
    | (Raise e, o1, t1) => (Raise e, o1, t1)
    | (Exit c, o1, t1) => (Exit c, o1, t1)
    end.

(** [try: body  except Exception as e: handler e] *)
Definition try_except {A} (body : M A) (handler : exn -> M A) : M A :=
  fun t =>
    match body t with
    | (Raise e, o1, t1) => let '(r, o2, t2) := handler e t1 in (r, o1 ++ o2, t2)
    | r => r
    end.

Definition print (s : string) : M unit := fun t => (Ret tt, [s], t).
Definition sys_exit {A} (code : Z) : M A := fun t => (Exit code, [], t).

Definition raise {A} (e : exn) : M A := fun t => (Raise e, [], t).

Declare Scope prog_scope.
Delimit Scope prog_scope with prog.
Notation "x <- m ;; k" := (bind m (fun x => k))
  (at level 100, m at next level, right associativity) : prog_scope.
Notation "m ;;; k" := (bind m (fun _ => k))
  (at level 100, right associativity) : prog_scope.

(** ** Operating system calls *)

Module OS.

Definition exists_key (k : key) : M bool :=
  fun t => (Ret (exists_at t k), [], t).

(** [os.path.exists(p)] *)
Definition path_exists (p : string) : M bool := exists_key (resolve p).

(** [mkdir(2)] on a resolved path. *)
Definition mkdir (k : key) : M unit :=
  fun t =>
    match node_at t k with
    | Some _ => (Raise (FileExistsError k), [], t)
    | None =>
        match node_at t (parent k) with
        | Some Dir => (Ret tt, [], <[k := Dir]> t)
        | Some (File _ _) => (Raise (NotADirectoryError k), [], t)
        | None => (Raise (FileNotFoundError k), [], t)
        end
    end.

(** [os.makedirs]: the missing ancestors first (a [FileExistsError] from
    that recursive call is swallowed, as the library does), then the
    directory itself. *)
Fixpoint makedirs_key (k : key) : M unit :=
  match k with
  | [] => mkdir []
  | _ :: head =>
      ex <- exists_key head ;;
      (if ex then ret tt
       else try_except (makedirs_key head)
              (fun e => match e with
                        | FileExistsError _ => ret tt
                        | _ => raise e
                        end)) ;;;
      mkdir k
  end%prog.

Definition makedirs (p : string) : M unit := makedirs_key (resolve p).

(** The mode of a file that [open] creates: 0o666 without the bits of
    the umask. *)
Definition new_file_mode (umask : Z) : Z := Z.land 438 (Z.lnot umask).

(** What [open] finds where a file is to be created. *)
Definition creatable (t : tree) (k : key) : option exn :=
  match node_at t (parent k) with
  | Some Dir => None
  | Some (File _ _) => Some (NotADirectoryError k)
  | None => Some (FileNotFoundError k)
  end.

(** [with open(p, "w") as f: f.write(content)] *)
Definition write_file (umask : Z) (p content : string) : M unit :=
  fun t =>
    let k := resolve p in
    match node_at t k with
    | Some Dir => (Raise (IsADirectoryError k), [], t)
    | Some (File _ mode) =>
        if writable mode then (Ret tt, [], <[k := File content mode]> t)
        else (Raise (PermissionError k), [], t)
    | None =>
        match creatable t k with
        | Some e => (Raise e, [], t)
        | None => (Ret tt, [], <[k := File content (new_file_mode umask)]> t)
        end
    end.

(** [with open(p, "a") as f: f.write(text)] *)
Definition append_file (umask : Z) (p text : string) : M unit :=
  fun t =>
    let k := resolve p in
    match node_at t k with
    | Some Dir => (Raise (IsADirectoryError k), [], t)
    | Some (File content mode) =>
        if writable mode then (Ret tt, [], <[k := File (content +:+ text) mode]> t)
        else (Raise (PermissionError k), [], t)
    | None =>
        match creatable t k with
        | Some e => (Raise e, [], t)
        | None => (Ret tt, [], <[k := File text (new_file_mode umask)]> t)
        end
    end.

(** [with open(p, "r") as f: content = f.read()] *)
Definition read_file (p : string) : M string :=
  fun t =>
    let k := resolve p in
    match node_at t k with
    | Some Dir => (Raise (IsADirectoryError k), [], t)
    | Some (File content mode) =>
        if readable mode then (Ret content, [], t)
        else (Raise (PermissionError k), [], t)
    | None => (Raise (FileNotFoundError k), [], t)
    end.

(** [os.chmod(p, mode)]; directories carry no mode in this model. *)
Definition chmod (p : string) (mode : Z) : M unit :=
  fun t =>
    let k := resolve p in
    match node_at t k with
    | Some Dir => (Ret tt, [], t)
    | Some (File content _) => (Ret tt, [], <[k := File content mode]> t)
    | None => (Raise (FileNotFoundError k), [], t)
    end.

(** What running a command comes to: the program is missing, or it runs
    to completion. *)
Inductive completed : Type :=
| Completed (returncode : Z) (stdout stderr : string).

Definition stdout_of (r : completed) : string :=
  match r with Completed _ out _ => out end.

(** [subprocess.run(cmd, capture_output=True, text=True, check=True)];
    [launch] is the environment: what each command does. *)
Definition subprocess_run (launch : list string -> option completed)
    (cmd : list string) : M completed :=
  match launch cmd with
  | None => raise (FileNotFoundError (firstn 1 cmd))
  | Some (Completed rc out err) =>
      if Z.eqb rc 0 then ret (Completed rc out err)
      else raise (CalledProcessError cmd rc err)
  end.

End OS.

(** ** The scripts *)

Section Scripts.

Local Open Scope prog_scope.

(** The skills root, which the scripts derive from their own location. *)
Variable skills_root : string.
(** The umask of the process. *)
Variable umask : Z.
(** [str(e)]: the text of an exception, the runtime's business. *)
Variable str_exn : exn -> string.

(** *** [create_skill.py] *)

Definition sparkles : string :=
  String "226"%char (String "156"%char (String "168"%char "")).

Definition metadata_json : string :=
  "{" +:+ dq +:+ "openclaw" +:+ dq +:+ ": {" +:+ dq +:+ "emoji" +:+ dq +:+ ": "
  +:+ dq +:+ sparkles +:+ dq +:+ ", " +:+ dq +:+ "requires" +:+ dq +:+ ": {"
  +:+ dq +:+ "bins" +:+ dq +:+ ": [], " +:+ dq +:+ "env" +:+ dq +:+ ": []}}}".

Definition skill_md_content (name description : string) : string :=
  "---" +:+ nl
  +:+ "name: " +:+ name +:+ nl
  +:+ "description: " +:+ description +:+ nl
  +:+ "metadata: " +:+ metadata_json +:+ nl
  +:+ "---" +:+ nl
  +:+ nl
  +:+ "# " +:+ title (replace_char "-" " " name) +:+ nl
  +:+ nl
  +:+ description +:+ nl
  +:+ nl
  +:+ "## Actions" +:+ nl
  +:+ nl.

Definition msg_exists (name skill_dir : string) : string :=
  "Error: Skill '" +:+ name +:+ "' already exists at " +:+ skill_dir.

Definition create_skill (name description : string) : M unit :=
  let skill_dir := join skills_root name in
  let scripts_dir := join skill_dir "scripts" in
  ex <- OS.path_exists skill_dir ;;
  (if ex
   then print (msg_exists name skill_dir) ;;; sys_exit 1
   else ret tt) ;;;
  try_except
    (OS.makedirs scripts_dir ;;;
     print ("Created directory: " +:+ skill_dir) ;;;
     print ("Created directory: " +:+ scripts_dir) ;;;
     OS.write_file umask (join skill_dir "SKILL.md")
       (skill_md_content name description) ;;;
     print ("Created SKILL.md for " +:+ name))
    (fun e =>
       print ("Error creating skill: " +:+ str_exn e) ;;;
       sys_exit 1).

(** *** [implement_action.py] *)

(** The heading a documented action carries. *)
Definition action_heading (action_name : string) : string :=
  "### " +:+ title (replace_char "_" " " action_name).

Definition new_action_block (action_name description script_filename : string)
  : string :=
  nl
  +:+ action_heading action_name +:+ nl
  +:+ description +:+ nl
  +:+ "```bash" +:+ nl
  +:+ "{baseDir}/scripts/" +:+ script_filename +:+ nl
  +:+ "```" +:+ nl.

Definition msg_created (script_path : string) : string :=
  "Created script: " +:+ script_path.

Definition msg_warning (action_name : string) : string :=
  "Warning: Action '" +:+ action_name
  +:+ "' seems to already exist in SKILL.md. Skipping markdown update.".

Definition msg_updated (skill_name : string) : string :=
  "Updated SKILL.md for " +:+ skill_name.

(** Lines 19-21: make sure the scripts directory is there. *)
Definition ensure_scripts_dir (scripts_dir : string) : M unit :=
  ex <- OS.path_exists scripts_dir ;;
  if negb ex then OS.makedirs scripts_dir else ret tt.

(** Lines 35-38, the body of the first [try]: write the script, make it
    executable, report. *)
Definition write_script_body (script_path code : string) : M unit :=
  OS.write_file umask script_path code ;;;
  OS.chmod script_path 493 ;;;            (* 0o755 *)
  print (msg_created script_path).

Definition msg_write_failed (e : exn) : string :=
  "Error writing script file: " +:+ str_exn e.

(** Lines 34-41: a failure of the script write is fatal. *)
Definition write_script (script_path code : string) : M unit :=
  try_except (write_script_body script_path code)
    (fun e => print (msg_write_failed e) ;;; sys_exit 1).

(** Lines 45-70, the body of the second [try]: read SKILL.md, skip a
    heading that is already there, append the block otherwise. *)
Definition update_skill_md_body
    (skill_name action_name description script_filename skill_md_path : string)
  : M unit :=
  content <- OS.read_file skill_md_path ;;
  if contains (action_heading action_name) content
  then print (msg_warning action_name)
  else
    let block := new_action_block action_name description script_filename in
    (if contains "## Actions" content
     then OS.append_file umask skill_md_path block
     else OS.append_file umask skill_md_path
            (nl +:+ "## Actions" +:+ nl +:+ block)) ;;;
    print (msg_updated skill_name).

Definition msg_update_failed (e : exn) : string :=
  "Error updating SKILL.md: " +:+ str_exn e.

(** Lines 44-74: a failure of the documentation update is only
    reported. *)
Definition update_skill_md
    (skill_name action_name description script_filename skill_md_path : string)
  : M unit :=
  try_except
    (update_skill_md_body skill_name action_name description script_filename
       skill_md_path)
    (fun e => print (msg_update_failed e)).

Definition msg_not_found (skill_name skill_dir : string) : string :=
  "Error: Skill '" +:+ skill_name +:+ "' not found at " +:+ skill_dir.

Definition implement_action (skill_name action_name description code : string)
  : M unit :=
  let skill_dir := join skills_root skill_name in
  let skill_md_path := join skill_dir "SKILL.md" in
  let scripts_dir := join skill_dir "scripts" in
  ex <- OS.path_exists skill_dir ;;
  (if negb ex
   then print (msg_not_found skill_name skill_dir) ;;; sys_exit 1
   else ret tt) ;;;
  ensure_scripts_dir scripts_dir ;;;
  let script_filename := action_name +:+ script_ext code in
  let script_path := join scripts_dir script_filename in
  write_script script_path code ;;;
  update_skill_md skill_name action_name description script_filename
    skill_md_path.

(** *** [search_skills.py] *)

Definition msg_no_results : string := "No skills found matching your query.".

Definition search_skills (launch : list string -> option OS.completed)
    (query : string) : M unit :=
  try_except
    (result <- OS.subprocess_run launch ["clawhub"; "search"; query] ;;
     let output := strip (OS.stdout_of result) in
     if String.eqb output ""
     then print msg_no_results
     else print output)
    (fun e =>
       match e with
       | CalledProcessError _ _ stderr =>
           print ("Error searching skills: " +:+ str_exn e) ;;;
           (if String.eqb stderr "" then ret tt
            else print ("Details: " +:+ stderr)) ;;;
           sys_exit 1
       | FileNotFoundError _ =>
           print "Error: 'clawhub' CLI not found. Is it installed in the OpenClaw container?" ;;;
           sys_exit 1
       | _ => raise e
       end).

(** *** [install_skill.py] *)

Definition msg_installing (slug : string) : string :=
  "Installing skill: " +:+ slug +:+ "...".

Definition msg_installed (slug : string) : string :=
  "Skill '" +:+ slug +:+ "' installed successfully.".

Definition install_skill (launch : list string -> option OS.completed)
    (slug : string) : M unit :=
  try_except
    (print (msg_installing slug) ;;;
     result <- OS.subprocess_run launch ["clawhub"; "install"; slug] ;;
     print (msg_installed slug) ;;;
     if String.eqb (OS.stdout_of result) ""
     then ret tt
     else print (OS.stdout_of result))
    (fun e =>
       match e with
       | CalledProcessError _ _ stderr =>
           print ("Error installing skill: " +:+ str_exn e) ;;;
           (if String.eqb stderr "" then ret tt
            else print ("Details: " +:+ stderr)) ;;;
           sys_exit 1
       | FileNotFoundError _ =>
           print "Error: 'clawhub' CLI not found. Is it installed in the OpenClaw container?" ;;;
           sys_exit 1
       | _ => raise e
       end).

End Scripts.

(** ** Vocabulary of the statements *)

(** [t'] is [t] with, at most, some new directories. *)
Definition only_new_dirs (t t' : tree) : Prop :=
  forall k, node_at t' k = node_at t k
            \/ (node_at t k = None /\ node_at t' k = Some Dir).

Definition is_file (n : option node) : bool :=
  match n with Some (File _ _) => true | _ => false end.

(** What the documentation update appends to a document that lacks the
    heading of the action. *)
Definition appended_text (action_name description script_filename content : string)
  : string :=
  if contains "## Actions" content
  then new_action_block action_name description script_filename
  else nl +:+ "## Actions" +:+ nl
       +:+ new_action_block action_name description script_filename.

(** Whether the documentation update would append to the document it
    finds: a readable, writable file without the heading. *)
Definition would_append (action_name : string) (n : option node) : bool :=
  match n with
  | Some (File content mode) =>
      readable mode && negb (contains (action_heading action_name) content)
      && writable mode
  | _ => false
  end.



(** ** Readings of the specification that the code does not follow

    Each is a sentence of the specification taken at its word; the
    development refutes it at a concrete input and proves the nearest
    statement that holds. *)



Section Readings.

Context (skills_root : string) (umask : Z) (str_exn : exn -> string).

Definition skill_key (skill_name : string) : key :=
  resolve (join skills_root skill_name).

Definition scripts_key (skill_name : string) : key :=
  resolve (join (join skills_root skill_name) "scripts").

Definition skill_md_key (skill_name : string) : key :=
  resolve (join (join skills_root skill_name) "SKILL.md").

Definition script_path (skill_name action_name code : string) : string :=
  join (join (join skills_root skill_name) "scripts")
    (action_name +:+ script_ext code).

Definition script_key (skill_name action_name code : string) : key :=
  resolve (script_path skill_name action_name code).

(** A fresh action of an existing skill getting its one new file inside
    the scripts directory of the skill. *)
Definition new_file_in_scripts_dir_reading
    (t : tree) (skill_name action_name description code : string) : Prop :=
  forall out t',
    exists_at t (skill_key skill_name) = true ->
    node_at t (script_key skill_name action_name code) = None ->
    implement_action skills_root umask str_exn
      skill_name action_name description code t = (Ret tt, out, t') ->
    exists k,
      parent k = scripts_key skill_name
      /\ node_at t k = None
      /\ node_at t' k = Some (File code 493)
      /\ forall k', k' <> k -> is_file (node_at t' k') = is_file (node_at t k').


End Readings.

(** ** Sample inputs *)

Module Sample.

Definition root : string := "/skills".
Definition umask : Z := 18.                       (* 0o022 *)
Definition str_exn (e : exn) : string :=
  match e with
  | FileNotFoundError _ => "No such file or directory"
  | FileExistsError _ => "File exists"
  | IsADirectoryError _ => "Is a directory"
  | NotADirectoryError _ => "Not a directory"
  | PermissionError _ => "Permission denied"
  | CalledProcessError _ _ _ => "Command returned non-zero exit status"
  end.

(** Only the skills root. *)
Definition empty_root : tree := <[ ["skills"] := Dir ]> ∅.

(** A skill directory without anything in it. *)
Definition bare_skill : tree := <[ ["demo"; "skills"] := Dir ]> empty_root.

Definition demo_doc : string :=
  "# Demo" +:+ nl +:+ nl +:+ "Demo skill" +:+ nl +:+ nl +:+ "## Actions" +:+ nl +:+ nl.

(** The skill [demo] as [create_skill] leaves it. *)
Definition demo_skill : tree :=
  <[ ["SKILL.md"; "demo"; "skills"] := File demo_doc 420 ]>
    (<[ ["scripts"; "demo"; "skills"] := Dir ]> bare_skill).


(** The skill [demo] documenting one action, [say_hi_there]. *)
Definition other_action_doc : string :=
  demo_doc +:+ nl +:+ "### Say Hi There" +:+ nl +:+ "Greets" +:+ nl.

Definition other_action : tree :=
  <[ ["SKILL.md"; "demo"; "skills"] := File other_action_doc 420 ]> demo_skill.



End Sample.

(** ** Vocabulary of the further properties *)

(** The line both registry scripts print when the tool cannot be
    launched. *)
Definition msg_tool_missing : string :=
  "Error: 'clawhub' CLI not found. Is it installed in the OpenClaw container?".


(** Sample environments for the registry scripts. *)
Module SampleTools.

(** No registry tool on the path. *)
Definition none (cmd : list string) : option OS.completed := None.

(** A registry tool that fails and says why. *)
Definition failing (cmd : list string) : option OS.completed :=
  Some (OS.Completed 2 "" "network unreachable").

(** A registry tool that succeeds and prints blanks only. *)
Definition blank (cmd : list string) : option OS.completed :=
  Some (OS.Completed 0 ("  " +:+ nl) "").

End SampleTools.


(** * Facts about the model *)

(** ** Text *)

Lemma append_cons (a : ascii) (s t : string) :
  String a s +:+ t = String a (s +:+ t).
Proof. reflexivity. Qed.

Lemma append_nil_l (s : string) : "" +:+ s = s.
Proof. reflexivity. Qed.

Lemma append_nil_r (s : string) : s +:+ "" = s.
Proof. induction s as [|a s IH]; [reflexivity|]. by rewrite append_cons, IH. Qed.

Lemma append_assoc (s t u : string) : (s +:+ t) +:+ u = s +:+ (t +:+ u).
Proof.
  induction s as [|a s IH]; [reflexivity|].
  by rewrite !append_cons, IH.
Qed.

Lemma lstrip_clean_head s : clean_head (lstrip s) = true.
Proof.
  induction s as [|c s IH]; [reflexivity|].
  simpl. destruct (isspace c) eqn:Hc; [exact IH|].
  simpl. by rewrite Hc.
Qed.

Lemma lstrip_id s : clean_head s = true -> lstrip s = s.
Proof.
  destruct s as [|c s]; [reflexivity|]. simpl.
  by destruct (isspace c).
Qed.

Lemma rstrip_clean_head s : clean_head s = true -> clean_head (rstrip s) = true.
Proof.
  destruct s as [|c s]; [reflexivity|]. simpl. intros Hc.
  destruct (rstrip s); [|exact Hc].
  destruct (isspace c) eqn:E; [reflexivity|]. simpl. by rewrite E.
Qed.

Lemma rstrip_idem s : rstrip (rstrip s) = rstrip s.
Proof.
  induction s as [|c s IH]; [reflexivity|]. simpl.
  destruct (rstrip s) as [|d r] eqn:Hr.
  - destruct (isspace c) eqn:Hc; [reflexivity|]. simpl. by rewrite Hc.
  - change (rstrip (String c (String d r))) with
      (match rstrip (String d r) with
       | EmptyString => if isspace c then EmptyString else String c EmptyString
       | r' => String c r'
       end).
    by rewrite IH.
Qed.

Lemma strip_idem s : strip (strip s) = strip s.
Proof.
  unfold strip.
  rewrite (lstrip_id (rstrip (lstrip s))).
  - apply rstrip_idem.
  - apply rstrip_clean_head, lstrip_clean_head.
Qed.

Lemma lstrip_all_space ws s : all_space ws = true -> lstrip (ws +:+ s) = lstrip s.
Proof.
  induction ws as [|c ws IH]; [reflexivity|].
  simpl. intros [Hc Hws]%andb_true_iff. rewrite Hc. by apply IH.
Qed.

Lemma lstrip_only_space ws : all_space ws = true -> lstrip ws = "".
Proof.
  induction ws as [|c ws IH]; [reflexivity|].
  simpl. intros [Hc Hws]%andb_true_iff. rewrite Hc. by apply IH.
Qed.

Lemma rstrip_all_space ws : all_space ws = true -> rstrip ws = "".
Proof.
  induction ws as [|c ws IH]; [reflexivity|].
  simpl. intros [Hc Hws]%andb_true_iff. by rewrite IH, Hc.
Qed.

Lemma rstrip_app_space s ws : all_space ws = true -> rstrip (s +:+ ws) = rstrip s.
Proof.
  intros Hws. induction s as [|c s IH].
  - by apply rstrip_all_space.
  - simpl. by rewrite IH.
Qed.

Lemma strip_app_space_r s ws : all_space ws = true -> strip (s +:+ ws) = strip s.
Proof.
  intros Hws. unfold strip. induction s as [|c s IH].
  - simpl. by rewrite lstrip_only_space.
  - simpl. destruct (isspace c); [exact IH|].
    by apply (rstrip_app_space (String c s)).
Qed.

Lemma strip_padding ws ws' s :
  all_space ws = true -> all_space ws' = true ->
  strip (ws +:+ s +:+ ws') = strip s.
Proof.
  intros Hws Hws'. unfold strip at 1. rewrite lstrip_all_space by done.
  fold (strip (s +:+ ws')). by apply strip_app_space_r.
Qed.


Lemma startswith_nil s : startswith s "" = true.
Proof. by destruct s. Qed.

Lemma startswith_app_r h n x : startswith h n = true -> startswith (h +:+ x) n = true.
Proof.
  revert h. induction n as [|a n IH]; intros h.
  - intros _. apply startswith_nil.
  - destruct h as [|b h]; [discriminate|]. simpl.
    destruct (Ascii.eqb a b); [apply IH|discriminate].
Qed.

Lemma startswith_self n x : startswith (n +:+ x) n = true.
Proof.
  induction n as [|a n IH]; [apply startswith_nil|].
  simpl. by rewrite Ascii.eqb_refl.
Qed.

Lemma contains_unfold n h :
  contains n h = startswith h n
                 || match h with
                    | EmptyString => false
                    | String _ h' => contains n h'
                    end.
Proof. by destruct h. Qed.

Lemma contains_app_r n h x : contains n h = true -> contains n (h +:+ x) = true.
Proof.
  induction h as [|c h IH].
  - rewrite contains_unfold, orb_false_r. intros H.
    rewrite contains_unfold. apply orb_true_iff. left.
    by apply (startswith_app_r "" n x).
  - rewrite contains_unfold. intros [H|H]%orb_true_iff.
    + rewrite contains_unfold. apply orb_true_iff. left.
      by apply (startswith_app_r (String c h) n x).
    + rewrite contains_unfold. apply orb_true_iff. right. simpl. by apply IH.
Qed.

Lemma contains_app_l n h x : contains n h = true -> contains n (x +:+ h) = true.
Proof.
  intros H. induction x as [|c x IH]; [exact H|].
  rewrite contains_unfold. apply orb_true_iff. right. exact IH.
Qed.

Lemma contains_mid n a b : contains n (a +:+ n +:+ b) = true.
Proof.
  apply contains_app_l. rewrite contains_unfold.
  by rewrite startswith_self.
Qed.

(** *** Paths *)

Lemma split_slash_nonempty s : split_slash s <> [].
Proof.
  destruct s as [|c s]; [discriminate|]. simpl.
  destruct (is_slash c); [discriminate|].
  by destruct (split_slash s).
Qed.

Lemma split_no_slash s : no_slash s = true -> split_slash s = [s].
Proof.
  induction s as [|c s IH]; [reflexivity|]. simpl.
  intros [Hc Hs]%andb_true_iff. apply negb_true_iff in Hc. rewrite Hc.
  by rewrite IH.
Qed.

Lemma split_app_no_slash a b :
  no_slash b = true ->
  split_slash (a +:+ b)
  = removelast (split_slash a) ++ [List.last (split_slash a) "" +:+ b].
Proof.
  intros Hb. induction a as [|c a IH].
  - simpl. by apply split_no_slash.
  - pose proof (split_slash_nonempty a) as Hne.
    simpl. rewrite IH. destruct (is_slash c).
    + destruct (split_slash a) as [|x xs]; [done|]. reflexivity.
    + destruct (split_slash a) as [|x [|y ys]]; [done|reflexivity|reflexivity].
Qed.

Lemma split_app_slash a b :
  split_slash (a +:+ String "/" b) = split_slash a ++ split_slash b.
Proof.
  induction a as [|c a IH]; [reflexivity|].
  pose proof (split_slash_nonempty a) as Hne.
  simpl. rewrite IH. destruct (is_slash c); [reflexivity|].
  by destruct (split_slash a).
Qed.

Lemma endswith_slash_inv a :
  endswith_slash a = true -> exists a0, a = a0 +:+ String "/" "".
Proof.
  induction a as [|c a IH]; [discriminate|].
  destruct a as [|d a].
  - simpl. unfold is_slash. intros ->%Ascii.eqb_eq. by exists "".
  - intros H. destruct (IH H) as [a0 Ha0]. exists (String c a0).
    simpl. by rewrite <- Ha0.
Qed.

Lemma step_plain cur n : plain n = true -> step cur n = n :: cur.
Proof.
  unfold plain, step.
  intros [[[_ H1]%andb_true_iff H2]%andb_true_iff H3]%andb_true_iff.
  apply negb_true_iff in H1, H2, H3. by rewrite H1, H2, H3.
Qed.

Lemma resolve_snoc l n :
  fold_left step (l ++ [n]) [] = step (fold_left step l []) n.
Proof. by rewrite fold_left_app. Qed.

Lemma plain_not_absolute n : plain n = true -> startswith n "/" = false.
Proof.
  destruct n as [|c n]; [done|]. unfold plain. simpl.
  intros [[[[Hc _]%andb_true_iff _]%andb_true_iff _]%andb_true_iff _]%andb_true_iff.
  apply negb_true_iff in Hc. unfold is_slash in Hc.
  rewrite Ascii.eqb_sym. by rewrite Hc.
Qed.

Lemma plain_no_slash n : plain n = true -> no_slash n = true.
Proof.
  unfold plain.
  by intros [[[H _]%andb_true_iff _]%andb_true_iff _]%andb_true_iff.
Qed.

Lemma resolve_join_plain d n :
  plain n = true -> resolve (join d n) = n :: resolve d.
Proof.
  intros Hn. pose proof (plain_no_slash n Hn) as Hs.
  unfold join. rewrite (plain_not_absolute n Hn).
  destruct (String.eqb d "") eqn:Hd; simpl.
  - apply String.eqb_eq in Hd as ->. unfold resolve. simpl.
    rewrite (split_no_slash n) by done.
    simpl. by apply step_plain.
  - destruct (endswith_slash d) eqn:He.
    + destruct (endswith_slash_inv d He) as [a0 ->].
      rewrite append_assoc. simpl. unfold resolve.
      rewrite !split_app_slash, (split_no_slash n) by done.
      rewrite !resolve_snoc, step_plain by done.
      change (split_slash "") with [""]. by rewrite resolve_snoc.
    + unfold resolve.
      rewrite split_app_slash, (split_no_slash n) by done.
      by rewrite resolve_snoc, step_plain.
Qed.

(** *** Script names *)

Lemma script_ext_is_ext code : is_ext (script_ext code).
Proof.
  unfold script_ext, is_ext.
  destruct (_ || _); [by left|].
  destruct (_ || _); [by right; left|by right; right].
Qed.

Lemma last_char_app l e : e <> "" -> last_char (l +:+ e) = last_char e.
Proof.
  intros He. induction l as [|c l IH]; [reflexivity|].
  simpl. destruct (l +:+ e) eqn:Hle; [|exact IH].
  destruct l; [done|discriminate].
Qed.

Lemma ext_no_slash e : is_ext e -> no_slash e = true.
Proof. by intros [->|[->| ->]]. Qed.

Lemma ext_not_absolute e a : is_ext e -> startswith (a +:+ e) "/" = startswith a "/".
Proof.
  intros He. destruct a as [|c a].
  - by destruct He as [->|[->| ->]].
  - simpl. by rewrite !startswith_nil.
Qed.

Lemma ext_name_ne l e s :
  is_ext e -> last_char s <> last_char e -> String.eqb (l +:+ e) s = false.
Proof.
  intros He Hs. apply String.eqb_neq. intros <-. apply Hs.
  apply last_char_app. by destruct He as [->|[->| ->]].
Qed.

Lemma no_slash_app a b : no_slash (a +:+ b) = no_slash a && no_slash b.
Proof.
  induction a as [|c a IH]; [reflexivity|]. simpl. by rewrite IH, andb_assoc.
Qed.

(** A script name never reads as the empty name, [.] or [..]. *)
Lemma step_ext cur l e : is_ext e -> step cur (l +:+ e) = (l +:+ e) :: cur.
Proof.
  intros He. unfold step.
  rewrite !(ext_name_ne l e) by (done || by destruct He as [->|[->| ->]]).
  reflexivity.
Qed.

Lemma plain_ext a e : is_ext e -> no_slash a = true -> plain (a +:+ e) = true.
Proof.
  intros He Ha. unfold plain.
  rewrite no_slash_app, Ha, (ext_no_slash e He).
  rewrite !(ext_name_ne a e) by (done || by destruct He as [->|[->| ->]]).
  reflexivity.
Qed.

Lemma join_app_ext d a e : is_ext e -> join d (a +:+ e) = join d a +:+ e.
Proof.
  intros He. unfold join. rewrite (ext_not_absolute e a He).
  destruct (startswith a "/"); [reflexivity|].
  destruct (_ || _); by rewrite ?append_assoc.
Qed.

(** Where a path that ends in an extension resolves: the name is its
    last segment, whatever comes before. *)
Lemma resolve_app_ext y e :
  is_ext e ->
  resolve (y +:+ e)
  = (List.last (split_slash y) "" +:+ e)
      :: fold_left step (removelast (split_slash y)) [].
Proof.
  intros He. unfold resolve.
  rewrite split_app_no_slash by by apply ext_no_slash.
  rewrite resolve_snoc. by apply step_ext.
Qed.

Lemma resolve_script_path d a e :
  is_ext e ->
  resolve (join d (a +:+ e))
  = (List.last (split_slash (join d a)) "" +:+ e)
      :: fold_left step (removelast (split_slash (join d a))) [].
Proof. intros He. rewrite join_app_ext by done. by apply resolve_app_ext. Qed.

Lemma resolve_skill_md d : resolve (join d "SKILL.md") = "SKILL.md" :: resolve d.
Proof. by apply resolve_join_plain. Qed.

Lemma resolve_scripts_dir d : resolve (join d "scripts") = "scripts" :: resolve d.
Proof. by apply resolve_join_plain. Qed.

(** The script is never the metadata document. *)
Lemma script_key_ne_md d d' a e :
  is_ext e -> resolve (join d (a +:+ e)) <> resolve (join d' "SKILL.md").
Proof.
  intros He. rewrite resolve_script_path, resolve_skill_md by done.
  intros [= H _]. apply String.eqb_eq in H.
  rewrite ext_name_ne in H; [done|done|].
  by destruct He as [->|[->| ->]].
Qed.

Lemma script_key_nonroot d a e : is_ext e -> resolve (join d (a +:+ e)) <> [].
Proof. intros He. by rewrite resolve_script_path. Qed.


(** ** The file tree *)

(** The laws of the computations, state by state. *)
Lemma bind_ret_l {A B} (a : A) (k : A -> M B) t : bind (ret a) k t = k a t.
Proof. unfold bind, ret. by destruct (k a t) as [[r o] t']. Qed.

Lemma bind_ret_r {A} (m : M A) t : bind m ret t = m t.
Proof.
  unfold bind, ret. destruct (m t) as [[[a|e|c] o] t']; [|done|done].
  by rewrite app_nil_r.
Qed.

Lemma bind_assoc {A B C} (m : M A) (k : A -> M B) (h : B -> M C) t :
  bind (bind m k) h t = bind m (fun a => bind (k a) h) t.
Proof.
  unfold bind. destruct (m t) as [[[a|e|c] o] t1]; [|done|done].
  destruct (k a t1) as [[[b|e|c] o1] t2]; [|done|done].
  destruct (h b t2) as [[r o2] t3]. by rewrite app_assoc.
Qed.

(** An exception reaches the handler; [sys.exit] goes past it. *)
Lemma try_except_raise {A} e (handler : exn -> M A) t :
  try_except (raise e) handler t = handler e t.
Proof. unfold try_except, raise. by destruct (handler e t) as [[r o] t']. Qed.

Lemma try_except_exit {A} c (handler : exn -> M A) t :
  try_except (sys_exit c) handler t = sys_exit c t.
Proof. reflexivity. Qed.

(** A run with a known outcome, taken apart. *)
Lemma run_split {A} (x : outcome A * list string * tree) r :
  x.1.1 = r -> x = (r, x.1.2, x.2).
Proof. destruct x as [[r' o'] t']. simpl. by intros ->. Qed.

Lemma node_at_nonroot (t : tree) k : k <> [] -> node_at t k = t !! k.
Proof. by destruct k. Qed.

Lemma node_at_insert_eq (t : tree) k n : k <> [] -> node_at (<[k:=n]> t) k = Some n.
Proof. intros Hk. rewrite node_at_nonroot by done. apply lookup_insert_eq. Qed.

Lemma node_at_insert_ne (t : tree) k k' n :
  k <> k' -> node_at (<[k:=n]> t) k' = node_at t k'.
Proof.
  intros Hk. destruct k' as [|c k']; [reflexivity|].
  simpl. by apply lookup_insert_ne.
Qed.

Lemma node_at_root_dir (t : tree) k : node_at t k <> Some Dir -> k <> [].
Proof. by destruct k. Qed.

Lemma only_new_dirs_refl t : only_new_dirs t t.
Proof. intros k. by left. Qed.

Lemma only_new_dirs_trans t1 t2 t3 :
  only_new_dirs t1 t2 -> only_new_dirs t2 t3 -> only_new_dirs t1 t3.
Proof.
  intros H12 H23 k. destruct (H12 k) as [E12|[N1 D2]], (H23 k) as [E23|[N2 D3]].
  - left. congruence.
  - right. split; congruence.
  - right. split; congruence.
  - congruence.
Qed.

Lemma only_new_dirs_keeps t t' k n :
  only_new_dirs t t' -> node_at t k = Some n -> node_at t' k = Some n.
Proof. intros H Hk. destruct (H k) as [E|[N _]]; congruence. Qed.

Lemma only_new_dirs_is_file t t' k :
  only_new_dirs t t' -> is_file (node_at t' k) = is_file (node_at t k).
Proof. intros H. destruct (H k) as [->|[-> ->]]; reflexivity. Qed.


Lemma mkdir_run k t r o t' :
  OS.mkdir k t = (r, o, t') -> o = [] /\ only_new_dirs t t'.
Proof.
  unfold OS.mkdir. destruct (node_at t k) eqn:Hk.
  { intros [= <- <- <-]. split; [done|apply only_new_dirs_refl]. }
  destruct (node_at t (parent k)) as [[|c m]|];
    intros [= <- <- <-]; (split; [done|]); try apply only_new_dirs_refl.
  intros k'. destruct (decide (k = k')) as [<-|Hne].
  - right. split; [done|]. apply node_at_insert_eq. intros ->. discriminate.
  - left. by apply node_at_insert_ne.
Qed.

Lemma makedirs_key_run k : forall t r o t',
  OS.makedirs_key k t = (r, o, t') -> o = [] /\ only_new_dirs t t'.
Proof.
  induction k as [|c head IH]; intros t r o t'.
  - apply mkdir_run.
  - simpl. unfold bind, OS.exists_key.
    destruct (exists_at t head).
    + unfold ret. destruct (OS.mkdir (c :: head) t) as [[r1 o1] t1] eqn:Hm.
      apply mkdir_run in Hm as [-> Hg]. by intros [= <- <- <-].
    + unfold try_except.
      destruct (OS.makedirs_key head t) as [[r0 o0] t0] eqn:Hrec.
      apply IH in Hrec as [-> Hg0].
      destruct r0 as [[]|e|code].
      * destruct (OS.mkdir (c :: head) t0) as [[r1 o1] t1] eqn:Hm.
        apply mkdir_run in Hm as [-> Hg]. intros [= <- <- <-].
        split; [done|]. by apply (only_new_dirs_trans t t0 t1).
      * destruct e; unfold ret, raise; simpl;
          try (intros [= <- <- <-]; by split).
        destruct (OS.mkdir (c :: head) t0) as [[r1 o1] t1] eqn:Hm.
        apply mkdir_run in Hm as [-> Hg]. intros [= <- <- <-].
        split; [done|]. by apply (only_new_dirs_trans t t0 t1).
      * intros [= <- <- <-]. by split.
Qed.

(** ** The phases of the scripts *)

Section RunFacts.

Context (skills_root : string) (umask : Z) (str_exn : exn -> string).

Lemma ensure_scripts_dir_run d t r o t' :
  ensure_scripts_dir d t = (r, o, t') -> o = [] /\ only_new_dirs t t'.
Proof.
  unfold ensure_scripts_dir, bind, OS.path_exists, OS.exists_key.
  destruct (exists_at t (resolve d)); simpl.
  - intros [= <- <- <-]. split; [done|apply only_new_dirs_refl].
  - unfold OS.makedirs.
    destruct (OS.makedirs_key (resolve d) t) as [[r0 o0] t0] eqn:Hm.
    apply makedirs_key_run in Hm as [-> Hg]. by intros [= <- <- <-].
Qed.

(** The body of the first [try], on what [open] finds at the path. *)
Lemma write_script_body_eq p code t :
  write_script_body umask p code t
  = match node_at t (resolve p) with
    | Some Dir => (Raise (IsADirectoryError (resolve p)), [], t)
    | Some (File _ mode) =>
        if writable mode
        then (Ret tt, [msg_created p], <[resolve p := File code 493]> t)
        else (Raise (PermissionError (resolve p)), [], t)
    | None =>
        match OS.creatable t (resolve p) with
        | Some e => (Raise e, [], t)
        | None => (Ret tt, [msg_created p], <[resolve p := File code 493]> t)
        end
    end.
Proof.
  unfold write_script_body, bind, OS.write_file, OS.chmod, print.
  destruct (node_at t (resolve p)) as [[|c m]|] eqn:Hk; [reflexivity| |].
  - destruct (writable m); [|reflexivity].
    rewrite node_at_insert_eq by (intros E; by rewrite E in Hk).
    by rewrite insert_insert_eq.
  - destruct (OS.creatable t (resolve p)); [reflexivity|].
    rewrite node_at_insert_eq by (intros E; by rewrite E in Hk).
    by rewrite insert_insert_eq.
Qed.

(** A script write that returns has left the script in place, with the
    code for content and mode 0o755. *)
Lemma write_script_body_Ret p code t o t' :
  write_script_body umask p code t = (Ret tt, o, t') ->
  o = [msg_created p] /\ t' = <[resolve p := File code 493]> t
  /\ resolve p <> [] /\ node_at t (resolve p) <> Some Dir.
Proof.
  rewrite write_script_body_eq.
  destruct (node_at t (resolve p)) as [[|c m]|] eqn:Hk; [done| |].
  - destruct (writable m); [|done]. intros [= <- <-].
    repeat split; [|done]. intros E. by rewrite E in Hk.
  - destruct (OS.creatable t (resolve p)); [done|]. intros [= <- <-].
    repeat split; [|done]. intros E. by rewrite E in Hk.
Qed.

(** A script write that fails has changed and printed nothing. *)
Lemma write_script_body_Raise p code t e o t' :
  write_script_body umask p code t = (Raise e, o, t') -> o = [] /\ t' = t.
Proof.
  rewrite write_script_body_eq.
  destruct (node_at t (resolve p)) as [[|c m]|].
  - by intros [= <- <- <-].
  - destruct (writable m); [done|]. by intros [= <- <- <-].
  - destruct (OS.creatable t (resolve p)); [|done]. by intros [= <- <- <-].
Qed.

Lemma write_script_body_no_exit p code t c o t' :
  write_script_body umask p code t <> (Exit c, o, t').
Proof.
  rewrite write_script_body_eq.
  destruct (node_at t (resolve p)) as [[|? m]|]; [done| |].
  - by destruct (writable m).
  - by destruct (OS.creatable t (resolve p)).
Qed.

(** The body of the second [try], on what is found at SKILL.md. *)
Lemma update_skill_md_body_eq skill action desc fname p t :
  update_skill_md_body umask skill action desc fname p t
  = match node_at t (resolve p) with
    | Some Dir => (Raise (IsADirectoryError (resolve p)), [], t)
    | Some (File content mode) =>
        if readable mode then
          if contains (action_heading action) content
          then (Ret tt, [msg_warning action], t)
          else if writable mode
          then (Ret tt, [msg_updated skill],
                <[resolve p := File (content +:+ appended_text action desc fname content) mode]> t)
          else (Raise (PermissionError (resolve p)), [], t)
        else (Raise (PermissionError (resolve p)), [], t)
    | None => (Raise (FileNotFoundError (resolve p)), [], t)
    end.
Proof.
  unfold update_skill_md_body, bind, OS.read_file, appended_text.
  destruct (node_at t (resolve p)) as [[|content m]|] eqn:Hk; [reflexivity| |reflexivity].
  destruct (readable m); [|reflexivity].
  destruct (contains (action_heading action) content); [reflexivity|].
  destruct (contains "## Actions" content);
    unfold OS.append_file; rewrite Hk; by destruct (writable m).
Qed.

(** The documentation update never fails the run. *)
Lemma update_skill_md_eq skill action desc fname p t :
  update_skill_md umask str_exn skill action desc fname p t
  = match update_skill_md_body umask skill action desc fname p t with
    | (Raise e, o, t') => (Ret tt, o ++ [msg_update_failed str_exn e], t')
    | r => r
    end.
Proof.
  unfold update_skill_md, try_except.
  by destruct (update_skill_md_body _ _ _ _ _ _ _) as [[[[]|e|c] o] t'].
Qed.

Lemma update_skill_md_body_no_exit skill action desc fname p t c o t' :
  update_skill_md_body umask skill action desc fname p t <> (Exit c, o, t').
Proof.
  rewrite update_skill_md_body_eq.
  destruct (node_at t (resolve p)) as [[|content m]|]; [done| |done].
  destruct (readable m); [|done].
  destruct (contains _ content); [done|]. by destruct (writable m).
Qed.


(** The whole of [implement_action], once the skill is there: the three
    phases in a row. *)
Lemma implement_action_eq skill action desc code t :
  exists_at t (resolve (join skills_root skill)) = true ->
  let skill_dir := join skills_root skill in
  let script_filename := action +:+ script_ext code in
  let script_path := join (join skill_dir "scripts") script_filename in
  implement_action skills_root umask str_exn skill action desc code t
  = match ensure_scripts_dir (join skill_dir "scripts") t with
    | (Ret _, _, ts) =>
        match write_script_body umask script_path code ts with
        | (Ret _, o1, tw) =>
            match update_skill_md_body umask skill action desc script_filename
                    (join skill_dir "SKILL.md") tw with
            | (Raise e, o2, t') =>
                (Ret tt, o1 ++ o2 ++ [msg_update_failed str_exn e], t')
            | (r, o2, t') => (r, o1 ++ o2, t')
            end
        | (Raise e, o1, tw) => (Exit 1, o1 ++ [msg_write_failed str_exn e], tw)
        | (Exit c, o1, tw) => (Exit c, o1, tw)
        end
    | (Raise e, o, ts) => (Raise e, o, ts)
    | (Exit c, o, ts) => (Exit c, o, ts)
    end.
Proof.
  intros Hex. cbv zeta. unfold implement_action.
  unfold bind at 1. unfold OS.path_exists at 1, OS.exists_key at 1.
  rewrite Hex. simpl negb. cbv iota.
  unfold bind at 1. unfold ret at 1. cbv iota beta.
  unfold bind at 1.
  destruct (ensure_scripts_dir _ t) as [[r0 o0] ts] eqn:He.
  destruct (ensure_scripts_dir_run _ _ _ _ _ He) as [-> _].
  destruct r0 as [[]|e|c]; [|reflexivity|reflexivity].
  unfold bind at 1. unfold write_script at 1, try_except at 1.
  destruct (write_script_body _ _ _ ts) as [[r1 o1] tw] eqn:Hw.
  destruct r1 as [[]|e|c]; [| |reflexivity].
  - rewrite update_skill_md_eq.
    destruct (update_skill_md_body _ _ _ _ _ _ tw) as [[[[]|e|c] o2] t']; simpl;
      by rewrite ?app_assoc.
  - unfold bind, print, sys_exit. simpl. by rewrite ?app_nil_r.
Qed.

End RunFacts.

(** ** Whole runs of [implement_action] *)

Section WholeRuns.

Context (skills_root : string) (umask : Z) (str_exn : exn -> string).


Lemma is_file_insert_file (t : tree) k k' c m :
  k' <> k -> is_file (node_at (<[k:=File c m]> t) k') = is_file (node_at t k').
Proof. intros Hne. by rewrite node_at_insert_ne. Qed.

(** The documentation update, on what is found at SKILL.md. *)
Lemma update_skill_md_full_eq skill action desc fname p t :
  update_skill_md umask str_exn skill action desc fname p t
  = match node_at t (resolve p) with
    | Some Dir =>
        (Ret tt, [msg_update_failed str_exn (IsADirectoryError (resolve p))], t)
    | Some (File content mode) =>
        if readable mode then
          if contains (action_heading action) content
          then (Ret tt, [msg_warning action], t)
          else if writable mode
          then (Ret tt, [msg_updated skill],
                <[resolve p := File (content +:+ appended_text action desc fname content) mode]> t)
          else (Ret tt, [msg_update_failed str_exn (PermissionError (resolve p))], t)
        else (Ret tt, [msg_update_failed str_exn (PermissionError (resolve p))], t)
    | None =>
        (Ret tt, [msg_update_failed str_exn (FileNotFoundError (resolve p))], t)
    end.
Proof.
  rewrite update_skill_md_eq, update_skill_md_body_eq.
  destruct (node_at t (resolve p)) as [[|content m]|]; [done| |done].
  destruct (readable m); [|done].
  destruct (contains _ content); [done|]. by destruct (writable m).
Qed.

(** What is appended carries the heading of the action. *)
Lemma appended_text_has_heading action desc fname content :
  contains (action_heading action)
    (content +:+ appended_text action desc fname content) = true.
Proof.
  unfold appended_text, new_action_block.
  destruct (contains "## Actions" content).
  - rewrite <- (append_assoc content nl). apply contains_mid.
  - rewrite <- !(append_assoc _ _ (action_heading action +:+ _)).
    rewrite <- (append_assoc content). apply contains_mid.
Qed.


(** After the update the document would not be appended to again, the
    other entries are as they were, and no file has come or gone. *)
Lemma update_skill_md_after skill action desc fname p t r o t' :
  update_skill_md umask str_exn skill action desc fname p t = (r, o, t') ->
  r = Ret tt
  /\ would_append action (node_at t' (resolve p)) = false
  /\ (forall k, k <> resolve p -> node_at t' k = node_at t k)
  /\ (forall k, is_file (node_at t' k) = is_file (node_at t k)).
Proof.
  rewrite update_skill_md_full_eq. unfold would_append.
  destruct (node_at t (resolve p)) as [[|content m]|] eqn:Hk.
  - intros [= <- <- <-]. by rewrite Hk.
  - destruct (readable m) eqn:Hr.
    + destruct (contains _ content) eqn:Hc.
      * intros [= <- <- <-]. by rewrite Hk, Hr, Hc.
      * destruct (writable m) eqn:Hw.
        -- intros [= <- <- <-].
           assert (resolve p <> []) as Hne by (intros E; by rewrite E in Hk).
           rewrite node_at_insert_eq by done.
           rewrite Hr, appended_text_has_heading.
           repeat split.
           ++ intros k Hk'. by apply node_at_insert_ne.
           ++ intros k. destruct (decide (resolve p = k)) as [<-|Hk'].
              ** by rewrite node_at_insert_eq, Hk.
              ** by rewrite node_at_insert_ne.
        -- intros [= <- <- <-]. by rewrite Hk, Hr, Hc, Hw.
    + intros [= <- <- <-]. by rewrite Hk, Hr.
  - intros [= <- <- <-]. by rewrite Hk.
Qed.

(** A run for a skill that is not there. *)
Lemma implement_action_missing skill action desc code t :
  exists_at t (skill_key skills_root skill) = false ->
  implement_action skills_root umask str_exn skill action desc code t
  = (Exit 1, [msg_not_found skill (join skills_root skill)], t).
Proof.
  intros Hex.
  unfold implement_action, bind, OS.path_exists, OS.exists_key.
  unfold skill_key in Hex. by rewrite Hex.
Qed.

Lemma mkdir_Ret k t o t' :
  OS.mkdir k t = (Ret tt, o, t') -> exists_at t' k = true.
Proof.
  unfold OS.mkdir. destruct (node_at t k) eqn:Hk; [done|].
  destruct (node_at t (parent k)) as [[|? ?]|]; [|done|done].
  intros [= <- <-]. unfold exists_at.
  rewrite node_at_insert_eq; [done|]. intros E. by rewrite E in Hk.
Qed.

Lemma makedirs_key_Ret k t o t' :
  OS.makedirs_key k t = (Ret tt, o, t') -> exists_at t' k = true.
Proof.
  destruct k as [|c head]; [apply mkdir_Ret|].
  simpl. unfold bind, OS.exists_key.
  destruct (exists_at t head).
  - unfold ret. destruct (OS.mkdir (c :: head) t) as [[r1 o1] t1] eqn:Hm.
    destruct r1 as [[]|e|code]; [|done|done].
    intros [= <- <-]. by apply mkdir_Ret in Hm.
  - unfold try_except.
    destruct (OS.makedirs_key head t) as [[r0 o0] t0].
    destruct r0 as [[]|e|code]; [| |done].
    + destruct (OS.mkdir (c :: head) t0) as [[r1 o1] t1] eqn:Hm.
      destruct r1 as [[]|e|code]; [|done|done].
      intros [= <- <-]. by apply mkdir_Ret in Hm.
    + destruct e; unfold ret, raise; simpl; try done.
      destruct (OS.mkdir (c :: head) t0) as [[r1 o1] t1] eqn:Hm.
      destruct r1 as [[]|e|code]; [|done|done].
      intros [= <- <-]. by apply mkdir_Ret in Hm.
Qed.

Lemma ensure_scripts_dir_Ret d t o t' :
  ensure_scripts_dir d t = (Ret tt, o, t') -> exists_at t' (resolve d) = true.
Proof.
  unfold ensure_scripts_dir, bind, OS.path_exists, OS.exists_key.
  destruct (exists_at t (resolve d)) eqn:Hex; simpl.
  - by intros [= <- <-].
  - unfold OS.makedirs.
    destruct (OS.makedirs_key (resolve d) t) as [[r0 o0] t0] eqn:Hm.
    destruct r0 as [[]|e|c]; [|done|done].
    intros [= <- <-]. by apply makedirs_key_Ret in Hm.
Qed.

(** A run that returns has gone through the three phases: the scripts
    directory is there, the script is in place, and the documentation
    update has run on the tree with the script. *)
Lemma implement_action_Ret skill action desc code t out t' :
  implement_action skills_root umask str_exn skill action desc code t = (Ret tt, out, t') ->
  exists ts o2,
    exists_at t (skill_key skills_root skill) = true
    /\ ensure_scripts_dir (join (join skills_root skill) "scripts") t
       = (Ret tt, [], ts)
    /\ only_new_dirs t ts
    /\ exists_at ts (scripts_key skills_root skill) = true
    /\ node_at ts (script_key skills_root skill action code) <> Some Dir
    /\ update_skill_md umask str_exn skill action desc
         (action +:+ script_ext code)
         (join (join skills_root skill) "SKILL.md")
         (<[script_key skills_root skill action code := File code 493]> ts)
       = (Ret tt, o2, t')
    /\ out = msg_created (script_path skills_root skill action code) :: o2.
Proof.
  intros Hrun.
  destruct (exists_at t (skill_key skills_root skill)) eqn:Hex;
    [|by rewrite implement_action_missing in Hrun].
  rewrite implement_action_eq in Hrun by exact Hex. cbv zeta in Hrun.
  destruct (ensure_scripts_dir _ t) as [[r0 o0] ts] eqn:He.
  destruct r0 as [[]|e|c]; [|done|done].
  pose proof (ensure_scripts_dir_Ret _ _ _ _ He) as Hsd.
  destruct (ensure_scripts_dir_run _ _ _ _ _ He) as [-> Hg].
  destruct (write_script_body _ _ _ ts) as [[r1 o1] tw] eqn:Hw.
  destruct r1 as [[]|e|c]; [|done|done].
  apply write_script_body_Ret in Hw as (-> & -> & Hne & Hnd).
  exists ts.
  destruct (update_skill_md umask str_exn skill action desc
              (action +:+ script_ext code)
              (join (join skills_root skill) "SKILL.md")
              (<[script_key skills_root skill action code := File code 493]> ts))
    as [[r2 o2] t2] eqn:Hu.
  pose proof Hu as Hu'. rewrite update_skill_md_eq in Hu'.
  unfold script_key, script_path in Hu'.
  destruct (update_skill_md_body _ _ _ _ _ _ _) as [[[[]|e|c] o3] t3];
    [| |done];
    injection Hu' as <- <- <-; injection Hrun as <- <-;
    eexists; repeat split; try done.
Qed.

(** The script is not the metadata document, whatever the names. *)
Lemma script_key_ne_skill_md skill action code :
  script_key skills_root skill action code <> skill_md_key skills_root skill.
Proof. apply script_key_ne_md, script_ext_is_ext. Qed.

Lemma script_key_not_root skill action code : script_key skills_root skill action code <> [].
Proof. apply script_key_nonroot, script_ext_is_ext. Qed.



(** What a run that returns leaves behind: the script, with the code for
    content and mode 0o755; apart from it, the files that were there. *)
Lemma implement_action_files skill action desc code t out t' :
  implement_action skills_root umask str_exn skill action desc code t = (Ret tt, out, t') ->
  node_at t' (script_key skills_root skill action code) = Some (File code 493)
  /\ forall k, k <> script_key skills_root skill action code ->
               is_file (node_at t' k) = is_file (node_at t k).
Proof.
  intros (ts & o2 & _ & _ & Hg & _ & _ & Hu & _)%implement_action_Ret.
  apply update_skill_md_after in Hu as (_ & _ & Hother & Hfiles).
  split.
  - rewrite Hother by apply script_key_ne_skill_md.
    apply node_at_insert_eq, script_key_not_root.
  - intros k Hk. rewrite Hfiles, node_at_insert_ne by done.
    by apply only_new_dirs_is_file.
Qed.


End WholeRuns.

(** * The claims *)

(** ** Refusals: C2 and C3 *)



(** C3.  When the skill directory does not exist, [implement_action]
    prints the "not found" error, ends through [sys.exit(1)], and leaves
    the file tree exactly as it found it: no script, no permission
    change, no append. *)
Theorem implement_action_missing_skill_refused
    (skills_root : string) (umask : Z) (str_exn : exn -> string)
    (skill_name action_name description code : string) (t : tree) :
  exists_at t (resolve (join skills_root skill_name)) = false ->
  implement_action skills_root umask str_exn
    skill_name action_name description code t
  = (Exit 1, [msg_not_found skill_name (join skills_root skill_name)], t)
  /\ exit_status (Exit 1 : outcome unit) <> 0.
Proof.
  intros Hex. split; [|done].
  unfold implement_action, bind, OS.path_exists, OS.exists_key.
  by rewrite Hex.
Qed.

Lemma implement_action_missing_skill_refused_witness :
  exists_at Sample.demo_skill (resolve (join Sample.root "ghost")) = false
  /\ implement_action Sample.root Sample.umask Sample.str_exn
       "ghost" "say_hi" "Says hi" "echo hi" Sample.demo_skill
     = (Exit 1, ["Error: Skill 'ghost' not found at /skills/ghost"],
        Sample.demo_skill).
Proof.
  split; [reflexivity|].
  apply (implement_action_missing_skill_refused Sample.root Sample.umask
           Sample.str_exn "ghost" "say_hi" "Says hi" "echo hi" Sample.demo_skill).
  reflexivity.
Defined.

(** ** Extension inference: C5 and C10 *)



(** C10.  Whitespace around the code does not change the inferred
    extension: the extension of a code is that of the stripped code, and
    padding a code with whitespace on either side leaves it as it is. *)
Theorem script_ext_ignores_padding (ws ws' code : string) :
  all_space ws = true -> all_space ws' = true ->
  script_ext (strip code) = script_ext code
  /\ script_ext (ws +:+ code +:+ ws') = script_ext code.
Proof.
  intros Hws Hws'. unfold script_ext.
  by rewrite strip_idem, strip_padding.
Qed.

Lemma script_ext_ignores_padding_witness :
  all_space (nl +:+ nl) = true /\ all_space (" " +:+ nl) = true
  /\ script_ext (strip ("import os")) = script_ext "import os"
  /\ script_ext ((nl +:+ nl) +:+ "import os" +:+ (" " +:+ nl)) = ".py".
Proof.
  split; [reflexivity|]. split; [reflexivity|].
  destruct (script_ext_ignores_padding (nl +:+ nl) (" " +:+ nl) "import os")
    as [H1 H2]; [reflexivity|reflexivity|].
  split; [exact H1|]. rewrite H2. reflexivity.
Defined.

(** ** Search: C8 *)




(** ** Scaffolding: C7 *)









(** ** Documenting an action: C9 and C4 *)





(** ** Script files: C6 and C1 *)

(** C6, refuted as worded.  The action name [../x] is fresh for the
    skill [demo], the run succeeds, and its one new file is [x.sh] in the
    skill directory: nothing new appears inside the scripts directory. *)
Lemma new_file_in_scripts_dir_reading_fails :
  ~ new_file_in_scripts_dir_reading Sample.root Sample.umask Sample.str_exn
      Sample.demo_skill "demo" "../x" "Escapes" "echo hi".
Proof.
  intros H.
  set (x := implement_action Sample.root Sample.umask Sample.str_exn
              "demo" "../x" "Escapes" "echo hi" Sample.demo_skill).
  assert (x = (Ret tt, x.1.2, x.2)) as Hrun
    by (apply run_split; vm_compute; reflexivity).
  destruct (H x.1.2 x.2) as (k & Hparent & Hnew & Hfile & _);
    [by vm_compute|by vm_compute|exact Hrun|].
  destruct (implement_action_files _ _ _ _ _ _ _ _ _ _ Hrun) as [_ Hfiles].
  assert (k <> script_key Sample.root "demo" "../x" "echo hi") as Hk.
  { intros ->. vm_compute in Hparent. discriminate Hparent. }
  specialize (Hfiles k Hk). by rewrite Hfile, Hnew in Hfiles.
Qed.

(** C6, amended.  For an existing skill and an action name without a
    path separator that has no script yet, a successful run leaves
    exactly one new file: it is named after the action and the inferred
    extension, it sits in the scripts directory of the skill, its content
    is the code, and its mode is 0o755, which gives execute permission to
    owner, group and others.  (With a separator in the action name the
    new file is the same but for its place, which is where the path
    resolves.) *)
Theorem fresh_action_one_new_script
    (skills_root : string) (umask : Z) (str_exn : exn -> string)
    (skill_name action_name description code : string)
    (t : tree) (out : list string) (t' : tree) :
  exists_at t (skill_key skills_root skill_name) = true ->
  no_slash action_name = true ->
  node_at t (script_key skills_root skill_name action_name code) = None ->
  implement_action skills_root umask str_exn
    skill_name action_name description code t = (Ret tt, out, t') ->
  let k := script_key skills_root skill_name action_name code in
  k = (action_name +:+ script_ext code) :: scripts_key skills_root skill_name
  /\ parent k = scripts_key skills_root skill_name
  /\ is_file (node_at t k) = false
  /\ node_at t' k = Some (File code 493)
  /\ (Z.testbit 493 6 = true /\ Z.testbit 493 3 = true /\ Z.testbit 493 0 = true)
  /\ forall k', k' <> k -> is_file (node_at t' k') = is_file (node_at t k').
Proof.
  intros _ Hplain Hfresh Hrun k.
  assert (k = (action_name +:+ script_ext code)
              :: scripts_key skills_root skill_name) as Hk.
  { unfold k, script_key, script_path, scripts_key.
    apply resolve_join_plain, plain_ext; [apply script_ext_is_ext|done]. }
  destruct (implement_action_files _ _ _ _ _ _ _ _ _ _ Hrun) as [Hfile Hfiles].
  split; [exact Hk|]. split; [by rewrite Hk|].
  split; [unfold k; by rewrite Hfresh|]. split; [exact Hfile|].
  split; [done|exact Hfiles].
Qed.

Lemma fresh_action_one_new_script_witness :
  exists out t',
    exists_at Sample.demo_skill (skill_key Sample.root "demo") = true
    /\ no_slash "say_hi" = true
    /\ node_at Sample.demo_skill (script_key Sample.root "demo" "say_hi" "echo hi")
       = None
    /\ implement_action Sample.root Sample.umask Sample.str_exn
         "demo" "say_hi" "Says hi" "echo hi" Sample.demo_skill = (Ret tt, out, t')
    /\ node_at t' (script_key Sample.root "demo" "say_hi" "echo hi")
       = Some (File "echo hi" 493).
Proof.
  set (x := implement_action Sample.root Sample.umask Sample.str_exn
              "demo" "say_hi" "Says hi" "echo hi" Sample.demo_skill).
  assert (x = (Ret tt, x.1.2, x.2)) as Hrun
    by (apply run_split; vm_compute; reflexivity).
  exists x.1.2, x.2.
  assert (exists_at Sample.demo_skill (skill_key Sample.root "demo") = true)
    as H1 by (vm_compute; reflexivity).
  assert (no_slash "say_hi" = true) as H2 by (vm_compute; reflexivity).
  assert (node_at Sample.demo_skill
            (script_key Sample.root "demo" "say_hi" "echo hi") = None)
    as H3 by (vm_compute; reflexivity).
  split; [exact H1|]. split; [exact H2|]. split; [exact H3|].
  split; [exact Hrun|].
  exact (proj1 (proj2 (proj2 (proj2 (fresh_action_one_new_script
           Sample.root Sample.umask Sample.str_exn
           "demo" "say_hi" "Says hi" "echo hi" Sample.demo_skill x.1.2 x.2
           H1 H2 H3 Hrun))))).
Defined.




(** * Further properties *)

(** ** The registry scripts *)



(** X3.  Without the registry tool both scripts end with status 1 on the
    same line, the one that names the missing tool. *)
Theorem registry_tool_missing
    (str_exn : exn -> string) (launch : list string -> option OS.completed)
    (query slug : string) (t : tree) :
  launch ["clawhub"; "search"; query] = None ->
  launch ["clawhub"; "install"; slug] = None ->
  search_skills str_exn launch query t = (Exit 1, [msg_tool_missing], t)
  /\ install_skill str_exn launch slug t
     = (Exit 1, [msg_installing slug; msg_tool_missing], t).
Proof.
  intros Hs Hi.
  unfold search_skills, install_skill, try_except, bind, OS.subprocess_run, print.
  by rewrite Hs, Hi.
Qed.

Lemma registry_tool_missing_witness :
  SampleTools.none ["clawhub"; "search"; "weather"] = None
  /\ SampleTools.none ["clawhub"; "install"; "weather-skill"] = None
  /\ search_skills Sample.str_exn SampleTools.none "weather" ∅
     = (Exit 1, [msg_tool_missing], ∅)
  /\ install_skill Sample.str_exn SampleTools.none "weather-skill" ∅
     = (Exit 1, [msg_installing "weather-skill"; msg_tool_missing], ∅).
Proof.
  split; [reflexivity|]. split; [reflexivity|].
  apply (registry_tool_missing Sample.str_exn SampleTools.none
           "weather" "weather-skill" ∅); reflexivity.
Defined.

(** X4.  When the tool exits with another status than 0, each script
    prints its error line, then the captured standard error under
    "Details: " when there is any and nothing more when there is none,
    and ends with status 1. *)
Theorem registry_tool_failure
    (str_exn : exn -> string) (launch : list string -> option OS.completed)
    (query slug : string) (rc rc' : Z) (out err out' err' : string) (t : tree) :
  launch ["clawhub"; "search"; query] = Some (OS.Completed rc out err) ->
  launch ["clawhub"; "install"; slug] = Some (OS.Completed rc' out' err') ->
  rc <> 0 -> rc' <> 0 ->
  search_skills str_exn launch query t
  = (Exit 1,
     ("Error searching skills: "
      +:+ str_exn (CalledProcessError ["clawhub"; "search"; query] rc err))
     :: (if String.eqb err "" then [] else ["Details: " +:+ err]), t)
  /\ install_skill str_exn launch slug t
     = (Exit 1,
        msg_installing slug
        :: ("Error installing skill: "
            +:+ str_exn (CalledProcessError ["clawhub"; "install"; slug] rc' err'))
        :: (if String.eqb err' "" then [] else ["Details: " +:+ err']), t).
Proof.
  intros Hs Hi Hrc Hrc'.
  unfold search_skills, install_skill, try_except, bind, OS.subprocess_run, print.
  rewrite Hs, Hi.
  apply Z.eqb_neq in Hrc, Hrc'. rewrite Hrc, Hrc'. simpl.
  by destruct (String.eqb err ""), (String.eqb err' "").
Qed.

Lemma registry_tool_failure_witness :
  search_skills Sample.str_exn SampleTools.failing "weather" ∅
  = (Exit 1,
     ["Error searching skills: Command returned non-zero exit status";
      "Details: network unreachable"], ∅)
  /\ install_skill Sample.str_exn SampleTools.failing "weather-skill" ∅
     = (Exit 1,
        [msg_installing "weather-skill";
         "Error installing skill: Command returned non-zero exit status";
         "Details: network unreachable"], ∅).
Proof.
  apply (registry_tool_failure Sample.str_exn SampleTools.failing
           "weather" "weather-skill" 2 2 "" "network unreachable"
           "" "network unreachable" ∅); (reflexivity || lia).
Defined.

(** X5.  On success [install_skill] prints the captured standard output
    as it is, blanks included, after its confirmation, and leaves it out
    only when it is empty; [search_skills] given the same output prints
    it stripped, or the "no results" line when only blanks were
    captured. *)
Theorem install_prints_raw_output
    (str_exn : exn -> string) (launch : list string -> option OS.completed)
    (slug query out err out' err' : string) (t : tree) :
  launch ["clawhub"; "install"; slug] = Some (OS.Completed 0 out err) ->
  launch ["clawhub"; "search"; query] = Some (OS.Completed 0 out' err') ->
  install_skill str_exn launch slug t
  = (Ret tt,
     [msg_installing slug; msg_installed slug]
     ++ (if String.eqb out "" then [] else [out]), t)
  /\ (all_space out' = true ->
      search_skills str_exn launch query t = (Ret tt, [msg_no_results], t)).
Proof.
  intros Hi Hs.
  unfold search_skills, install_skill, try_except, bind, OS.subprocess_run, print.
  rewrite Hi, Hs. simpl. split.
  - by destruct (String.eqb out "").
  - intros Hblank. unfold strip.
    by rewrite lstrip_only_space.
Qed.

Lemma install_prints_raw_output_witness :
  install_skill Sample.str_exn SampleTools.blank "weather-skill" ∅
  = (Ret tt,
     [msg_installing "weather-skill"; msg_installed "weather-skill";
      "  " +:+ nl], ∅)
  /\ search_skills Sample.str_exn SampleTools.blank "weather" ∅
     = (Ret tt, [msg_no_results], ∅).
Proof.
  destruct (install_prints_raw_output Sample.str_exn SampleTools.blank
              "weather-skill" "weather" ("  " +:+ nl) "" ("  " +:+ nl) "" ∅
              eq_refl eq_refl) as [Hi Hs].
  split; [exact Hi|]. apply Hs. reflexivity.
Defined.

(** ** Scaffolding a skill *)

Lemma mkdir_spec k t r o t' :
  OS.mkdir k t = (r, o, t') ->
  (forall c, r <> Exit c)
  /\ (forall k', k' <> k -> node_at t' k' = node_at t k')
  /\ (r = Ret tt ->
      node_at t' k = Some Dir /\ node_at t (parent k) = Some Dir
      /\ node_at t k = None /\ k <> []).
Proof.
  unfold OS.mkdir. destruct (node_at t k) eqn:Hk.
  { intros [= <- <- <-]. by repeat split. }
  assert (k <> []) as Hne by (intros E; by rewrite E in Hk).
  destruct (node_at t (parent k)) as [[|c m]|] eqn:Hp;
    intros [= <- <- <-]; (split; [done|]); (split; [|try done]); try done.
  - intros k' Hk'. by apply node_at_insert_ne.
  - intros _. by rewrite node_at_insert_eq.
Qed.

Lemma not_suffix_longer (k' k : key) :
  (length k < length k')%nat -> ~ k' `suffix_of` k.
Proof. intros Hlen Hs%suffix_length. lia. Qed.


(** [os.makedirs] never exits, touches only the directory and what lies
    above it, and when it returns the directory and its parent are
    directories and the directory was not there before. *)
Lemma makedirs_key_spec k : forall t r o t',
  OS.makedirs_key k t = (r, o, t') ->
  (forall c, r <> Exit c)
  /\ (forall k', ~ k' `suffix_of` k -> node_at t' k' = node_at t k')
  /\ (r = Ret tt ->
      node_at t' k = Some Dir /\ node_at t' (parent k) = Some Dir
      /\ node_at t k = None).
Proof.
  induction k as [|c head IH]; intros t r o t' Hrun.
  - apply mkdir_spec in Hrun as (Hx & Hother & Hret).
    split; [done|]. split.
    + intros k' Hk'. apply Hother. intros ->. by apply Hk'.
    + intros Hr. by destruct (Hret Hr) as (_ & _ & _ & ?).
  - simpl in Hrun. unfold bind, OS.exists_key in Hrun.
    assert (forall t0 r' o' t1,
              (forall k', ~ k' `suffix_of` head -> node_at t0 k' = node_at t k') ->
              OS.mkdir (c :: head) t0 = (r', o', t1) ->
              (forall c0, r' <> Exit c0)
              /\ (forall k', ~ k' `suffix_of` c :: head ->
                             node_at t1 k' = node_at t k')
              /\ (r' = Ret tt ->
                  node_at t1 (c :: head) = Some Dir
                  /\ node_at t1 (parent (c :: head)) = Some Dir
                  /\ node_at t (c :: head) = None)) as Hlast.
    { intros t0 r' o' t1 H0 Hm.
      apply mkdir_spec in Hm as (Hx & Hother & Hret).
      split; [done|]. split.
      - intros k' Hk'. rewrite Hother, H0; [done| |].
        + intros Hs. apply Hk'. by apply suffix_cons_r.
        + intros ->. by apply Hk'.
      - intros Hr. destruct (Hret Hr) as (Hd & Hp & Hn & _).
        split; [done|]. split.
        + simpl. rewrite Hother; [done|].
          intros E. apply (f_equal length) in E. simpl in E. lia.
        + rewrite <- H0; [done|]. apply not_suffix_longer. simpl. lia. }
    destruct (exists_at t head).
    + unfold ret in Hrun.
      destruct (OS.mkdir (c :: head) t) as [[r1 o1] t1] eqn:Hm.
      injection Hrun as <- <- <-. by apply (Hlast t r1 o1 t1).
    + unfold try_except in Hrun.
      destruct (OS.makedirs_key head t) as [[r0 o0] t0] eqn:Hrec.
      apply IH in Hrec as (Hx0 & Hother0 & _).
      destruct r0 as [[]|e|code]; [| |by destruct (Hx0 code)].
      * destruct (OS.mkdir (c :: head) t0) as [[r1 o1] t1] eqn:Hm.
        injection Hrun as <- <- <-. by apply (Hlast t0 r1 o1 t1).
      * destruct e; unfold ret, raise in Hrun; simpl in Hrun;
          try (injection Hrun as <- <- <-; split; [done|]; split; [|done];
               intros k' Hk'; apply Hother0; intros Hs; apply Hk';
               by apply suffix_cons_r).
        destruct (OS.mkdir (c :: head) t0) as [[r1 o1] t1] eqn:Hm.
        injection Hrun as <- <- <-. by apply (Hlast t0 r1 o1 t1).
Qed.

Lemma write_file_spec umask p content t r o t' :
  OS.write_file umask p content t = (r, o, t') ->
  o = [] /\ (forall c, r <> Exit c)
  /\ (forall k, k <> resolve p -> node_at t' k = node_at t k)
  /\ (forall e, r = Raise e -> t' = t)
  /\ (r = Ret tt -> node_at t (resolve p) = None ->
      node_at t' (resolve p) = Some (File content (OS.new_file_mode umask))).
Proof.
  unfold OS.write_file.
  destruct (node_at t (resolve p)) as [[|c m]|] eqn:Hk.
  - intros [= <- <- <-]. by repeat split.
  - destruct (writable m); intros [= <- <- <-]; repeat split; try done.
    intros k Hne. by apply node_at_insert_ne.
  - assert (resolve p <> []) as Hne by (intros E; by rewrite E in Hk).
    destruct (OS.creatable t (resolve p)); intros [= <- <- <-];
      repeat split; try done.
    + intros k Hk'. by apply node_at_insert_ne.
    + intros _ _. by apply node_at_insert_eq.
Qed.

Section CreateFacts.

Context (skills_root : string) (umask : Z) (str_exn : exn -> string).

(** [create_skill] for a name without a skill: the directories, then the
    document. *)
Lemma create_skill_eq name description t :
  exists_at t (skill_key skills_root name) = false ->
  create_skill skills_root umask str_exn name description t
  = match OS.makedirs_key (scripts_key skills_root name) t with
    | (Ret _, _, t0) =>
        match OS.write_file umask (join (join skills_root name) "SKILL.md")
                (skill_md_content name description) t0 with
        | (Ret _, _, t1) =>
            (Ret tt,
             ["Created directory: " +:+ join skills_root name;
              "Created directory: " +:+ join (join skills_root name) "scripts";
              "Created SKILL.md for " +:+ name], t1)
        | (Raise e, _, t1) =>
            (Exit 1,
             ["Created directory: " +:+ join skills_root name;
              "Created directory: " +:+ join (join skills_root name) "scripts";
              "Error creating skill: " +:+ str_exn e], t1)
        | (Exit c, _, t1) =>
            (Exit c,
             ["Created directory: " +:+ join skills_root name;
              "Created directory: " +:+ join (join skills_root name) "scripts"],
             t1)
        end
    | (Raise e, _, t0) => (Exit 1, ["Error creating skill: " +:+ str_exn e], t0)
    | (Exit c, _, t0) => (Exit c, [], t0)
    end.
Proof.
  intros Hex. unfold create_skill.
  unfold bind at 1. unfold OS.path_exists at 1, OS.exists_key at 1.
  unfold skill_key in Hex. rewrite Hex. cbv iota beta.
  unfold bind at 1, ret at 1. cbv iota beta.
  unfold try_except. unfold bind at 1. unfold OS.makedirs, scripts_key.
  destruct (OS.makedirs_key _ t) as [[r0 o0] t0] eqn:Hm.
  apply makedirs_key_run in Hm as [-> _].
  destruct r0 as [[]|e|c]; [|reflexivity|reflexivity].
  unfold bind at 1, print at 1. cbv iota beta.
  unfold bind at 1, print at 1. cbv iota beta.
  unfold bind at 1.
  destruct (OS.write_file _ _ _ t0) as [[r1 o1] t1] eqn:Hw.
  apply write_file_spec in Hw as (-> & _).
  by destruct r1 as [[]|e|c].
Qed.

Lemma skill_md_key_cons name :
  skill_md_key skills_root name = "SKILL.md" :: skill_key skills_root name.
Proof. apply resolve_skill_md. Qed.

Lemma scripts_key_cons name :
  scripts_key skills_root name = "scripts" :: skill_key skills_root name.
Proof. apply resolve_scripts_dir. Qed.


End CreateFacts.





(** X8.  After a successful [create_skill], creating a skill of the same
    name again, whatever the description, is refused with the "already
    exists" error and changes nothing. *)
Theorem create_skill_twice_refused
    (skills_root : string) (umask : Z) (str_exn : exn -> string)
    (name d1 d2 : string) (t : tree) (o1 : list string) (t1 : tree) :
  create_skill skills_root umask str_exn name d1 t = (Ret tt, o1, t1) ->
  create_skill skills_root umask str_exn name d2 t1
  = (Exit 1, [msg_exists name (join skills_root name)], t1).
Proof.
  intros Hrun.
  assert (exists_at t (skill_key skills_root name) = false) as Hex.
  { destruct (exists_at t (skill_key skills_root name)) eqn:Hex; [|done].
    unfold create_skill, bind, OS.path_exists, OS.exists_key in Hrun.
    unfold skill_key in Hex. by rewrite Hex in Hrun. }
  rewrite create_skill_eq in Hrun by exact Hex.
  destruct (OS.makedirs_key _ t) as [[r0 o0] t0] eqn:Hm.
  apply makedirs_key_spec in Hm as (_ & _ & Hret).
  destruct r0 as [[]|e|c]; [|done|done].
  destruct (Hret eq_refl) as (_ & Hp & _).
  destruct (OS.write_file _ _ _ t0) as [[r1 o'] t1'] eqn:Hw.
  apply write_file_spec in Hw as (_ & _ & Hother & _).
  fold (skill_md_key skills_root name) in Hother.
  destruct r1 as [[]|e|c]; [|done|done]. injection Hrun as <- <-.
  assert (exists_at t1' (skill_key skills_root name) = true) as Hex1.
  { unfold exists_at. rewrite Hother.
    - rewrite scripts_key_cons in Hp. simpl in Hp. by rewrite Hp.
    - rewrite skill_md_key_cons.
      intros E. apply (f_equal length) in E. simpl in E. lia. }
  unfold create_skill, bind, OS.path_exists, OS.exists_key.
  unfold skill_key in Hex1. by rewrite Hex1.
Qed.

Lemma create_skill_twice_refused_witness :
  exists o1 t1,
    create_skill Sample.root Sample.umask Sample.str_exn
      "my-skill" "Does things" Sample.empty_root = (Ret tt, o1, t1)
    /\ create_skill Sample.root Sample.umask Sample.str_exn
         "my-skill" "Does other things" t1
       = (Exit 1, [msg_exists "my-skill" "/skills/my-skill"], t1).
Proof.
  set (x := create_skill Sample.root Sample.umask Sample.str_exn
              "my-skill" "Does things" Sample.empty_root).
  assert (x = (Ret tt, x.1.2, x.2)) as Hrun
    by (apply run_split; vm_compute; reflexivity).
  exists x.1.2, x.2. split; [exact Hrun|].
  exact (create_skill_twice_refused Sample.root Sample.umask Sample.str_exn
           "my-skill" "Does things" "Does other things"
           Sample.empty_root x.1.2 x.2 Hrun).
Defined.

(** ** Implementing an action *)

Section ActionFacts.

Context (skills_root : string) (umask : Z) (str_exn : exn -> string).





End ActionFacts.

(** X9.  Whatever the outcome of [implement_action], a SKILL.md that was
    there is still there with the same mode, and its old content is a
    prefix of the new one: the script only ever appends to the document,
    so whatever text the document contained, the heading of an action
    documented earlier for one, it still contains. *)
Theorem skill_md_append_only
    (skills_root : string) (umask : Z) (str_exn : exn -> string)
    (skill_name action_name description code : string) (t : tree)
    (r : outcome unit) (out : list string) (t' : tree)
    (content : string) (mode : Z) :
  implement_action skills_root umask str_exn
    skill_name action_name description code t = (r, out, t') ->
  node_at t (skill_md_key skills_root skill_name) = Some (File content mode) ->
  exists added,
    node_at t' (skill_md_key skills_root skill_name)
    = Some (File (content +:+ added) mode)
    /\ forall s, contains s content = true ->
                 contains s (content +:+ added) = true.
Proof.
  intros Hrun Hdoc.
  assert (forall t0, node_at t0 (skill_md_key skills_root skill_name)
                     = Some (File content mode) ->
            exists added,
              node_at t0 (skill_md_key skills_root skill_name)
              = Some (File (content +:+ added) mode)
              /\ forall s, contains s content = true ->
                           contains s (content +:+ added) = true) as Hsame.
  { intros t0 H0. exists "". by rewrite append_nil_r. }
  destruct (exists_at t (skill_key skills_root skill_name)) eqn:Hex.
  2:{ rewrite implement_action_missing in Hrun by exact Hex.
      injection Hrun as <- <- <-. by apply Hsame. }
  rewrite implement_action_eq in Hrun by exact Hex. cbv zeta in Hrun.
  destruct (ensure_scripts_dir _ t) as [[r0 o0] ts] eqn:He.
  apply ensure_scripts_dir_run in He as [-> Hg].
  apply (only_new_dirs_keeps _ _ _ _ Hg) in Hdoc.
  destruct r0 as [[]|e|c];
    [|injection Hrun as <- <- <-; by apply Hsame
     |injection Hrun as <- <- <-; by apply Hsame].
  destruct (write_script_body _ _ _ ts) as [[r1 o1] tw] eqn:Hw.
  destruct r1 as [[]|e|c].
  - apply write_script_body_Ret in Hw as (-> & -> & _ & _).
    rewrite <- (node_at_insert_ne ts
                  (script_key skills_root skill_name action_name code)
                  _ (File code 493)) in Hdoc
      by apply script_key_ne_skill_md.
    unfold script_key, script_path in Hdoc.
    rewrite update_skill_md_body_eq in Hrun.
    pose proof Hdoc as Hdoc'. unfold skill_md_key in Hdoc'.
    rewrite Hdoc' in Hrun.
    destruct (readable mode);
      [|injection Hrun as <- <- <-; by apply Hsame].
    destruct (contains _ content);
      [injection Hrun as <- <- <-; by apply Hsame|].
    destruct (writable mode);
      [|injection Hrun as <- <- <-; by apply Hsame].
    injection Hrun as <- <- <-.
    exists (appended_text action_name description
              (action_name +:+ script_ext code) content).
    split.
    + apply node_at_insert_eq. intros E.
      unfold skill_md_key in E. by rewrite E in Hdoc'.
    + intros s Hs. by apply contains_app_r.
  - apply write_script_body_Raise in Hw as [-> ->].
    injection Hrun as <- <- <-. by apply Hsame.
  - by apply write_script_body_no_exit in Hw.
Qed.

Lemma skill_md_append_only_witness :
  exists out t' added,
    implement_action Sample.root Sample.umask Sample.str_exn
      "demo" "say_hi" "Says hi" "echo hi" Sample.other_action = (Ret tt, out, t')
    /\ node_at t' (skill_md_key Sample.root "demo")
       = Some (File (Sample.other_action_doc +:+ added) 420).
Proof.
  set (x := implement_action Sample.root Sample.umask Sample.str_exn
              "demo" "say_hi" "Says hi" "echo hi" Sample.other_action).
  assert (x = (Ret tt, x.1.2, x.2)) as Hrun
    by (apply run_split; vm_compute; reflexivity).
  assert (node_at Sample.other_action (skill_md_key Sample.root "demo")
          = Some (File Sample.other_action_doc 420)) as Hdoc
    by (vm_compute; reflexivity).
  destruct (skill_md_append_only Sample.root Sample.umask Sample.str_exn
              "demo" "say_hi" "Says hi" "echo hi" Sample.other_action
              (Ret tt) x.1.2 x.2 Sample.other_action_doc 420 Hrun Hdoc)
    as (added & Hnew & _).
  by exists x.1.2, x.2, added.
Defined.

(** X10.  Whatever the outcome of [implement_action], an entry that is
    neither the script nor SKILL.md of the skill is as it was, or is a
    directory that was not there: the script removes nothing and
    overwrites no other file. *)
Theorem implement_action_touches_two_paths
    (skills_root : string) (umask : Z) (str_exn : exn -> string)
    (skill_name action_name description code : string) (t : tree)
    (r : outcome unit) (out : list string) (t' : tree) (k : key) :
  implement_action skills_root umask str_exn
    skill_name action_name description code t = (r, out, t') ->
  k <> script_key skills_root skill_name action_name code ->
  k <> skill_md_key skills_root skill_name ->
  node_at t' k = node_at t k
  \/ (node_at t k = None /\ node_at t' k = Some Dir).
Proof.
  intros Hrun Hks Hkm.
  destruct (exists_at t (skill_key skills_root skill_name)) eqn:Hex.
  2:{ rewrite implement_action_missing in Hrun by exact Hex.
      injection Hrun as <- <- <-. by left. }
  rewrite implement_action_eq in Hrun by exact Hex. cbv zeta in Hrun.
  destruct (ensure_scripts_dir _ t) as [[r0 o0] ts] eqn:He.
  apply ensure_scripts_dir_run in He as [-> Hg].
  destruct r0 as [[]|e|c];
    [|injection Hrun as <- <- <-; apply Hg|injection Hrun as <- <- <-; apply Hg].
  destruct (write_script_body _ _ _ ts) as [[r1 o1] tw] eqn:Hw.
  destruct r1 as [[]|e|c].
  - apply write_script_body_Ret in Hw as (-> & -> & _ & _).
    destruct (update_skill_md umask str_exn skill_name action_name description
                (action_name +:+ script_ext code)
                (join (join skills_root skill_name) "SKILL.md")
                (<[script_key skills_root skill_name action_name code
                   := File code 493]> ts)) as [[r2 o2] t2] eqn:Hu.
    pose proof Hu as Hu'. rewrite update_skill_md_eq in Hu'.
    unfold script_key, script_path in Hu'.
    assert (t' = t2) as ->.
    { destruct (update_skill_md_body _ _ _ _ _ _ _) as [[[[]|e|c] o3] t3];
        injection Hu' as <- <- <-; by injection Hrun as <- <- <-. }
    apply update_skill_md_after in Hu as (_ & _ & Hother & _).
    rewrite Hother by exact Hkm.
    rewrite node_at_insert_ne by done. apply Hg.
  - apply write_script_body_Raise in Hw as [-> ->].
    injection Hrun as <- <- <-. apply Hg.
  - by apply write_script_body_no_exit in Hw.
Qed.

Lemma implement_action_touches_two_paths_witness :
  exists out t',
    implement_action Sample.root Sample.umask Sample.str_exn
      "demo" "say_hi" "Says hi" "echo hi" Sample.bare_skill = (Ret tt, out, t')
    /\ node_at Sample.bare_skill ["scripts"; "demo"; "skills"] = None
    /\ node_at t' ["scripts"; "demo"; "skills"] = Some Dir.
Proof.
  set (x := implement_action Sample.root Sample.umask Sample.str_exn
              "demo" "say_hi" "Says hi" "echo hi" Sample.bare_skill).
  assert (x = (Ret tt, x.1.2, x.2)) as Hrun
    by (apply run_split; vm_compute; reflexivity).
  exists x.1.2, x.2. split; [exact Hrun|].
  destruct (implement_action_touches_two_paths Sample.root Sample.umask
              Sample.str_exn "demo" "say_hi" "Says hi" "echo hi"
              Sample.bare_skill (Ret tt) x.1.2 x.2
              ["scripts"; "demo"; "skills"] Hrun)
    as [Hsame|Hnew].
  - vm_compute. discriminate.
  - vm_compute. discriminate.
  - exfalso. assert (node_at x.2 ["scripts"; "demo"; "skills"] = Some Dir) as H
      by (vm_compute; reflexivity).
    rewrite Hsame in H. vm_compute in H. discriminate H.
  - exact Hnew.
Defined.









(** ** Names and markers *)







(** X16.  Code that is empty or blank gets the shell extension; so does
    an [import ] or [const ] marker with nothing but blanks after it,
    because stripping takes the blank of the marker away; an interpreter
    directive alone keeps its extension. *)
Theorem script_ext_blank_and_bare_markers (ws : string) :
  all_space ws = true ->
  script_ext ws = ".sh"
  /\ script_ext ("import " +:+ ws) = ".sh"
  /\ script_ext ("const " +:+ ws) = ".sh"
  /\ script_ext ("#!/usr/bin/env python" +:+ ws) = ".py"
  /\ script_ext ("#!/usr/bin/env node" +:+ ws) = ".js".
Proof.
  intros Hws.
  assert (all_space (String " " ws) = true) as Hws' by (simpl; by rewrite Hws).
  assert (strip ws = "") as H0
    by (unfold strip; by rewrite lstrip_only_space).
  assert (strip ("import " +:+ ws) = "import") as H1
    by (change ("import " +:+ ws) with ("import" +:+ String " " ws);
        by rewrite strip_app_space_r).
  assert (strip ("const " +:+ ws) = "const") as H2
    by (change ("const " +:+ ws) with ("const" +:+ String " " ws);
        by rewrite strip_app_space_r).
  assert (strip ("#!/usr/bin/env python" +:+ ws) = "#!/usr/bin/env python")
    as H3 by (by rewrite strip_app_space_r).
  assert (strip ("#!/usr/bin/env node" +:+ ws) = "#!/usr/bin/env node")
    as H4 by (by rewrite strip_app_space_r).
  unfold script_ext. by rewrite H0, H1, H2, H3, H4.
Qed.

Lemma script_ext_blank_and_bare_markers_witness :
  all_space (" " +:+ nl) = true
  /\ script_ext (" " +:+ nl) = ".sh"
  /\ script_ext ("import " +:+ (" " +:+ nl)) = ".sh".
Proof.
  split; [reflexivity|].
  destruct (script_ext_blank_and_bare_markers (" " +:+ nl) eq_refl)
    as (H0 & H1 & _).
  split; [exact H0|exact H1].
Defined.
